(** * TCP AZS congestion control: a shallow embedding of [src/tcp_azs.c]

    The module registers seven callbacks in a [tcp_congestion_ops] table.
    Each callback receives the socket, reads or writes the private record
    [struct azs] kept in the socket's congestion-control area and, for
    three of them, the sender's congestion window [snd_cwnd].  The
    callbacks are embedded as computations in a state monad over the
    socket; the Veno routine that [tcp_azs_cong_avoid] falls back to is
    not part of the file and is taken as a parameter. *)

From Stdlib Require Import ZArith List Lia Bool Permutation.
From ExtLib Require Import Structures.Monad Structures.MonadState.
From ExtLib Require Import Data.Monads.StateMonad.
Import ListNotations.
Import MonadNotation.
Local Open Scope Z_scope.
Local Open Scope monad_scope.

(** ** Machine integers *)

(** Values of the C types [u8], [u32] and [s32] are integers in [Z]; a
    store into an unsigned field keeps the value modulo the field width. *)
Definition to_u8 (z : Z) : Z := z mod 2 ^ 8.
Definition to_u32 (z : Z) : Z := z mod 2 ^ 32.

Definition is_u32 (z : Z) : Prop := 0 <= z < 2 ^ 32.
Definition is_s32 (z : Z) : Prop := - 2 ^ 31 <= z < 2 ^ 31.

(** C truth value of an integer used as a flag. *)
Definition flag (z : Z) : bool := negb (z =? 0).

(** ** Constants *)

Definition TCP_AZS_INIT_RTT : Z := 1000000.
Definition DEFAULT_AZS_WINDOW_SIZE : Z := 65000.

(** ** Data *)

(** Modelled from the spec: the fifth field, [ezs_en], of this record.
    [tcp_azs_cong_avoid] reads [azs->ezs_en], which [struct azs] does not
    declare; the spec describes it as a field that is never initialised
    or assigned and that is distinct from [azs_en].  It is kept as a
    field that no callback writes.  The first four fields are
    [struct azs] as the source declares it. *)
Record azs : Type := mk_azs {
  azs_en : Z;
  if_cong : Z;
  rtt_min : Z;
  rtt : Z;
  ezs_en : Z
}.

(** The part of the socket the callbacks touch: the congestion window of
    [tcp_sk(sk)] and the private area returned by [inet_csk_ca(sk)]. *)
Record sock : Type := mk_sock {
  snd_cwnd : Z;
  icsk_ca_priv : azs
}.

Definition set_azs_en (v : Z) (a : azs) : azs :=
  mk_azs (to_u8 v) (if_cong a) (rtt_min a) (rtt a) (ezs_en a).
Definition set_if_cong (v : Z) (a : azs) : azs :=
  mk_azs (azs_en a) (to_u8 v) (rtt_min a) (rtt a) (ezs_en a).
Definition set_rtt_min (v : Z) (a : azs) : azs :=
  mk_azs (azs_en a) (if_cong a) (to_u32 v) (rtt a) (ezs_en a).
Definition set_rtt (v : Z) (a : azs) : azs :=
  mk_azs (azs_en a) (if_cong a) (rtt_min a) (to_u32 v) (ezs_en a).

Definition set_snd_cwnd (v : Z) (sk : sock) : sock :=
  mk_sock (to_u32 v) (icsk_ca_priv sk).
Definition set_icsk_ca_priv (a : azs) (sk : sock) : sock :=
  mk_sock (snd_cwnd sk) a.

(** ** Memory accesses through the two pointers *)

(** A callback returning an [A]: a computation over the socket. *)
Abbreviation hook := (state sock).

(** [azs->f] read through [azs = inet_csk_ca(sk)]. *)
Definition azs_load (f : azs -> Z) : hook Z :=
  sk <- get ;; ret (f (icsk_ca_priv sk)).

(** [azs->f = v]. *)
Definition azs_store (setf : Z -> azs -> azs) (v : Z) : hook unit :=
  sk <- get ;; put (set_icsk_ca_priv (setf v (icsk_ca_priv sk)) sk).

(** [tp->snd_cwnd = v] through [tp = tcp_sk(sk)]. *)
Definition tp_store_snd_cwnd (v : Z) : hook unit :=
  sk <- get ;; put (set_snd_cwnd v sk).

(** ** The callbacks *)

Definition tcp_azs_init : hook unit :=
  azs_store set_azs_en 1 ;;
  azs_store set_if_cong 0 ;;
  azs_store set_rtt_min TCP_AZS_INIT_RTT ;;
  azs_store set_rtt TCP_AZS_INIT_RTT.

Definition tcp_azs_pkts_acked (cnt rtt_us : Z) : hook unit :=
  (if 0 <? rtt_us then azs_store set_rtt rtt_us else ret tt) ;;
  m <- azs_load rtt_min ;;
  r <- azs_load rtt ;;
  azs_store set_rtt_min (Z.min m r) ;;
  tp_store_snd_cwnd DEFAULT_AZS_WINDOW_SIZE.

Definition tcp_azs_undo_cwnd : hook Z :=
  ret DEFAULT_AZS_WINDOW_SIZE.

Definition tcp_azs_state (ca_state : Z) : hook unit :=
  azs_store set_azs_en 1.

Definition tcp_azs_cwnd_event (event : Z) : hook unit :=
  tp_store_snd_cwnd DEFAULT_AZS_WINDOW_SIZE.

(** The fallback [tcp_veno_cong_avoid] is defined outside the file; the
    callback takes it as its first argument. *)
Definition tcp_azs_cong_avoid
    (tcp_veno_cong_avoid : Z -> Z -> hook unit) (ack acked : Z) : hook unit :=
  e <- azs_load ezs_en ;;
  if e =? 0
  then tcp_veno_cong_avoid ack acked
  else tp_store_snd_cwnd DEFAULT_AZS_WINDOW_SIZE.

Definition tcp_azs_ssthresh : hook Z :=
  ret DEFAULT_AZS_WINDOW_SIZE.

(** ** The stack driving the callbacks *)

(** One call made by the stack after [init], named after the slots of the
    [tcp_congestion_ops] table. *)
Inductive call : Type :=
| ssthresh
| cong_avoid (ack acked : Z)
| cwnd_event (event : Z)
| pkts_acked (cnt rtt_us : Z)
| set_state (ca_state : Z)
| undo_cwnd.

(** The table [tcp_azs]: which callback a slot runs.  Returned values are
    dropped, only the effect on the socket is kept. *)
Definition tcp_azs (veno : Z -> Z -> hook unit) (c : call) : hook unit :=
  match c with
  | ssthresh => _ <- tcp_azs_ssthresh ;; ret tt
  | cong_avoid ack acked => tcp_azs_cong_avoid veno ack acked
  | cwnd_event event => tcp_azs_cwnd_event event
  | pkts_acked cnt rtt_us => tcp_azs_pkts_acked cnt rtt_us
  | set_state ca_state => tcp_azs_state ca_state
  | undo_cwnd => _ <- tcp_azs_undo_cwnd ;; ret tt
  end.

(** Socket after one call. *)
Definition step (veno : Z -> Z -> hook unit) (sk : sock) (c : call) : sock :=
  execState (tcp_azs veno c) sk.

(** Socket after a sequence of calls, oldest first. *)
Definition run (veno : Z -> Z -> hook unit) (cs : list call) (sk : sock) : sock :=
  fold_left (step veno) cs sk.

(** A connection: [init] on whatever the private area held, then calls. *)
Definition connection
    (veno : Z -> Z -> hook unit) (sk0 : sock) (cs : list call) : sock :=
  run veno cs (execState tcp_azs_init sk0).

(** A sequence of [pkts_acked] calls given by its [(cnt, rtt_us)] pairs. *)
Definition acked_all (samples : list (Z * Z)) (sk : sock) : sock :=
  fold_left (fun s p => execState (tcp_azs_pkts_acked (fst p) (snd p)) s)
            samples sk.

(** The fallback leaves the private record of this module as it found it. *)
Definition keeps_ca_priv (veno : Z -> Z -> hook unit) : Prop :=
  forall ack acked sk,
    icsk_ca_priv (execState (veno ack acked) sk) = icsk_ca_priv sk.

(** ** Sample sockets and fallbacks *)

(** A socket whose private area is all zero, with a window of 10. *)
Definition sk_zeroed : sock := mk_sock 10 (mk_azs 0 0 0 0 0).

(** The same socket once [tcp_azs_init] has run. *)
Definition sk_fresh : sock := execState tcp_azs_init sk_zeroed.

(** A socket that was not initialised: [azs_en] is clear and the RTT
    fields hold one second. *)
Definition sk_override_off : sock :=
  mk_sock 10 (mk_azs 0 0 TCP_AZS_INIT_RTT TCP_AZS_INIT_RTT 0).

(** A fallback that returns without touching the socket. *)
Definition veno_idle (ack acked : Z) : hook unit := ret tt.

(** A fallback that opens the window by the number of acked segments. *)
Definition veno_grow (ack acked : Z) : hook unit :=
  sk <- get ;; put (set_snd_cwnd (snd_cwnd sk + acked) sk).

(** ** Auxiliary definitions for the properties *)

(** The value [azs->rtt] holds once the conditional store has run. *)
Definition rtt_after (rtt_us : Z) (a : azs) : Z :=
  if 0 <? rtt_us then to_u32 rtt_us else rtt a.

(** A sample the stack can deliver as a fresh measurement: a positive [s32]. *)
Definition positive_sample (p : Z * Z) : Prop := is_s32 (snd p) /\ 0 < snd p.

(** Both flags hold what [tcp_azs_init] wrote, and the two RTT fields are
    ordered [u32] values. *)
Record azs_inv (a : azs) : Prop := mk_azs_inv {
  inv_azs_en : azs_en a = 1;
  inv_if_cong : if_cong a = 0;
  inv_rtt_min : 0 <= rtt_min a;
  inv_order : rtt_min a <= rtt a;
  inv_rtt : rtt a < 2 ^ 32
}.

(** Three acknowledgements carrying samples, as [(cnt, rtt_us)] pairs. *)
Definition sample_acks : list (Z * Z) := [(5, 50000); (3, 70000); (1, 20000)].

(** A short life of a connection after [init]. *)
Definition sample_calls : list call :=
  [pkts_acked 5 50000; cong_avoid 100 2; set_state 4; cwnd_event 0;
   pkts_acked 3 70000; undo_cwnd; ssthresh].

(** ** Traces of calls *)

(** The samples a trace stores into [azs->rtt]: the [rtt_us] argument of
    each [pkts_acked] call that passes the test [rtt_us > 0], oldest
    first. *)
Fixpoint stored_samples (cs : list call) : list Z :=
  match cs with
  | [] => []
  | pkts_acked _ rtt_us :: cs' =>
      if 0 <? rtt_us then rtt_us :: stored_samples cs' else stored_samples cs'
  | _ :: cs' => stored_samples cs'
  end.

(** The [rtt_us] argument of every [pkts_acked] call is an [s32], as the
    callback's signature has it. *)
Definition s32_samples (cs : list call) : Prop :=
  Forall (fun c => match c with
                   | pkts_acked _ rtt_us => is_s32 rtt_us
                   | _ => True
                   end) cs.

(** The calls whose callback contains a store or the fallback call:
    [cong_avoid], [cwnd_event] and [pkts_acked].  The bodies of
    [ssthresh] and [undo_cwnd] only return a constant, and [set_state]
    only stores 1 into [azs_en]. *)
Definition writes_window (c : call) : bool :=
  match c with
  | cong_avoid _ _ | cwnd_event _ | pkts_acked _ _ => true
  | ssthresh | set_state _ | undo_cwnd => false
  end.

(** A socket on which [ezs_en] holds 1 and nothing is initialised. *)
Definition sk_ezs_set : sock := mk_sock 10 (mk_azs 0 0 0 0 1).

(** A trace with a sample that is not stored and two that are. *)
Definition mixed_calls : list call :=
  [set_state 1; pkts_acked 2 (-1); pkts_acked 5 50000; cong_avoid 100 2;
   undo_cwnd; pkts_acked 3 70000; pkts_acked 1 0; cwnd_event 3; ssthresh].

(** A trace that stores the two samples of [mixed_calls] the other way
    round. *)
Definition swapped_calls : list call :=
  [pkts_acked 3 70000; cwnd_event 3; pkts_acked 5 50000].

(** * Properties *)

(** ** Scenarios *)

Example sk_fresh_value :
  sk_fresh = mk_sock 10 (mk_azs 1 0 1000000 1000000 0).
Proof. reflexivity. Qed.

Example scenario_ack_50ms :
  execState (tcp_azs_pkts_acked 5 50000) sk_fresh
  = mk_sock 65000 (mk_azs 1 0 50000 50000 0).
Proof. reflexivity. Qed.

Example scenario_ack_no_sample :
  execState (tcp_azs_pkts_acked 3 (-1)) sk_fresh
  = mk_sock 65000 (mk_azs 1 0 1000000 1000000 0).
Proof. reflexivity. Qed.

Example scenario_cwnd_event :
  execState (tcp_azs_cwnd_event 4) sk_fresh
  = mk_sock 65000 (mk_azs 1 0 1000000 1000000 0).
Proof. reflexivity. Qed.

(** ** What one callback does to the socket *)

Lemma init_exec (sk : sock) :
  execState tcp_azs_init sk
  = mk_sock (snd_cwnd sk)
      (mk_azs 1 0 TCP_AZS_INIT_RTT TCP_AZS_INIT_RTT (ezs_en (icsk_ca_priv sk))).
Proof. reflexivity. Qed.


Lemma pkts_acked_exec (cnt rtt_us : Z) (sk : sock) :
  execState (tcp_azs_pkts_acked cnt rtt_us) sk
  = let a := icsk_ca_priv sk in
    mk_sock DEFAULT_AZS_WINDOW_SIZE
      (mk_azs (azs_en a) (if_cong a)
              (to_u32 (Z.min (rtt_min a) (rtt_after rtt_us a)))
              (rtt_after rtt_us a) (ezs_en a)).
Proof.
  unfold tcp_azs_pkts_acked, rtt_after.
  destruct (0 <? rtt_us); reflexivity.
Qed.

Lemma state_exec (ca_state : Z) (sk : sock) :
  execState (tcp_azs_state ca_state) sk
  = mk_sock (snd_cwnd sk) (set_azs_en 1 (icsk_ca_priv sk)).
Proof. reflexivity. Qed.

Lemma cwnd_event_exec (event : Z) (sk : sock) :
  execState (tcp_azs_cwnd_event event) sk
  = mk_sock DEFAULT_AZS_WINDOW_SIZE (icsk_ca_priv sk).
Proof. reflexivity. Qed.

Lemma cong_avoid_exec veno (ack acked : Z) (sk : sock) :
  runState (tcp_azs_cong_avoid veno ack acked) sk
  = if ezs_en (icsk_ca_priv sk) =? 0
    then runState (veno ack acked) sk
    else (tt, mk_sock DEFAULT_AZS_WINDOW_SIZE (icsk_ca_priv sk)).
Proof.
  unfold tcp_azs_cong_avoid. cbn.
  destruct (ezs_en (icsk_ca_priv sk) =? 0); reflexivity.
Qed.

(** ** Range facts for the stores *)

Lemma to_u32_id (z : Z) : is_u32 z -> to_u32 z = z.
Proof. unfold is_u32, to_u32. intros H. apply Z.mod_small. exact H. Qed.

Lemma to_u32_range (z : Z) : is_u32 (to_u32 z).
Proof. unfold is_u32, to_u32. apply Z.mod_pos_bound. reflexivity. Qed.

Lemma positive_s32_is_u32 (z : Z) : is_s32 z -> 0 < z -> is_u32 z.
Proof. unfold is_s32, is_u32. intros [_ H] Hp. split; [lia|]. 
  assert (2 ^ 31 < 2 ^ 32) by reflexivity. lia.
Qed.


Lemma rtt_after_range (rtt_us : Z) (a : azs) :
  azs_inv a -> is_u32 (rtt_after rtt_us a).
Proof.
  intros Ha. unfold rtt_after. destruct (0 <? rtt_us).
  - apply to_u32_range.
  - destruct Ha. unfold is_u32. lia.
Qed.

Lemma min_after_range (rtt_us : Z) (a : azs) :
  azs_inv a -> is_u32 (Z.min (rtt_min a) (rtt_after rtt_us a)).
Proof.
  intros Ha. pose proof (rtt_after_range rtt_us a Ha) as Hr.
  destruct Ha. unfold is_u32 in *. lia.
Qed.

Lemma init_inv (sk : sock) : azs_inv (icsk_ca_priv (execState tcp_azs_init sk)).
Proof.
  rewrite init_exec. constructor; cbn; unfold TCP_AZS_INIT_RTT; try reflexivity; lia.
Qed.

Lemma pkts_acked_inv (cnt rtt_us : Z) (sk : sock) :
  azs_inv (icsk_ca_priv sk) ->
  azs_inv (icsk_ca_priv (execState (tcp_azs_pkts_acked cnt rtt_us) sk)).
Proof.
  intros Ha. rewrite pkts_acked_exec. cbn.
  pose proof (rtt_after_range rtt_us _ Ha) as Hr.
  pose proof (min_after_range rtt_us _ Ha) as Hm.
  rewrite (to_u32_id _ Hm).
  destruct Ha. unfold is_u32 in *.
  constructor; cbn; try assumption; lia.
Qed.

(** ** Calls preserve the invariant *)

Section Fallback.

Variable veno : Z -> Z -> hook unit.
Hypothesis veno_frame : keeps_ca_priv veno.

Lemma cong_avoid_ca_priv (ack acked : Z) (sk : sock) :
  icsk_ca_priv (execState (tcp_azs_cong_avoid veno ack acked) sk)
  = icsk_ca_priv sk.
Proof.
  unfold execState. rewrite cong_avoid_exec.
  destruct (ezs_en (icsk_ca_priv sk) =? 0).
  - apply veno_frame.
  - reflexivity.
Qed.

Lemma step_inv (sk : sock) (c : call) :
  azs_inv (icsk_ca_priv sk) -> azs_inv (icsk_ca_priv (step veno sk c)).
Proof.
  intros Ha. unfold step. destruct c; cbn [tcp_azs].
  - exact Ha.
  - rewrite cong_avoid_ca_priv. exact Ha.
  - exact Ha.
  - apply pkts_acked_inv. exact Ha.
  - destruct Ha. constructor; cbn; try assumption. reflexivity.
  - exact Ha.
Qed.

Lemma run_inv (cs : list call) :
  forall sk, azs_inv (icsk_ca_priv sk) -> azs_inv (icsk_ca_priv (run veno cs sk)).
Proof.
  unfold run. induction cs as [|c cs IH]; intros sk Ha; cbn [fold_left].
  - exact Ha.
  - apply IH. apply step_inv. exact Ha.
Qed.

Lemma connection_inv (sk0 : sock) (cs : list call) :
  azs_inv (icsk_ca_priv (connection veno sk0 cs)).
Proof. unfold connection. apply run_inv. apply init_inv. Qed.

Lemma step_rtt_min_le (sk : sock) (c : call) :
  azs_inv (icsk_ca_priv sk) ->
  rtt_min (icsk_ca_priv (step veno sk c)) <= rtt_min (icsk_ca_priv sk).
Proof.
  intros Ha. unfold step. destruct c; cbn [tcp_azs].
  - apply Z.le_refl.
  - rewrite cong_avoid_ca_priv. apply Z.le_refl.
  - apply Z.le_refl.
  - rewrite pkts_acked_exec. cbn.
    rewrite (to_u32_id _ (min_after_range rtt_us _ Ha)). apply Z.le_min_l.
  - apply Z.le_refl.
  - apply Z.le_refl.
Qed.

End Fallback.

(** ** The forced window *)

Lemma pkts_acked_forces_window (cnt rtt_us : Z) (sk : sock) :
  snd_cwnd (execState (tcp_azs_pkts_acked cnt rtt_us) sk)
  = DEFAULT_AZS_WINDOW_SIZE.
Proof. rewrite pkts_acked_exec. reflexivity. Qed.

Lemma cwnd_event_forces_window (event : Z) (sk : sock) :
  snd_cwnd (execState (tcp_azs_cwnd_event event) sk) = DEFAULT_AZS_WINDOW_SIZE.
Proof. reflexivity. Qed.

Lemma cong_avoid_delegates veno (ack acked : Z) (sk : sock) :
  flag (ezs_en (icsk_ca_priv sk)) = false ->
  runState (tcp_azs_cong_avoid veno ack acked) sk = runState (veno ack acked) sk.
Proof.
  unfold flag. intros H. rewrite cong_avoid_exec.
  destruct (ezs_en (icsk_ca_priv sk) =? 0); [reflexivity | discriminate H].
Qed.

(** C1: with the override flag [azs_en] set, the avoidance step is claimed
    to force the window to 65000.  On the socket [tcp_azs_init] produces
    from a zeroed private area [azs_en] is 1, yet for every fallback
    [tcp_azs_cong_avoid 100 2] is the fallback's own run, because the test
    reads [ezs_en]; with a fallback that returns at once the window stays
    at 10. *)
Theorem cong_avoid_override_on_window_not_forced :
  flag (azs_en (icsk_ca_priv sk_fresh)) = true /\
  (forall veno,
     runState (tcp_azs_cong_avoid veno 100 2) sk_fresh
     = runState (veno 100 2) sk_fresh) /\
  snd_cwnd (execState (tcp_azs_cong_avoid veno_idle 100 2) sk_fresh) = 10 /\
  10 <> DEFAULT_AZS_WINDOW_SIZE.
Proof.
  split; [reflexivity|]. split; [|split].
  - intros veno. apply cong_avoid_delegates. reflexivity.
  - reflexivity.
  - discriminate.
Qed.



Example scenario_override_off :
  runState (tcp_azs_cong_avoid veno_grow 100 2) sk_override_off
  = (tt, mk_sock 12 (icsk_ca_priv sk_override_off)).
Proof. reflexivity. Qed.

(** ** RTT bookkeeping *)

Lemma pkts_acked_positive_sample (cnt r : Z) (sk : sock) :
  is_s32 r -> 0 < r -> is_u32 (rtt_min (icsk_ca_priv sk)) ->
  let a' := icsk_ca_priv (execState (tcp_azs_pkts_acked cnt r) sk) in
  rtt a' = r /\ rtt_min a' = Z.min (rtt_min (icsk_ca_priv sk)) r.
Proof.
  intros Hs Hp Hm. rewrite pkts_acked_exec. cbn.
  pose proof (positive_s32_is_u32 r Hs Hp) as Hr.
  unfold rtt_after. destruct (Z.ltb_spec 0 r) as [_|Hn]; [|lia].
  rewrite (to_u32_id r Hr). split; [reflexivity|].
  apply to_u32_id. unfold is_u32 in *. lia.
Qed.


Lemma fold_min_range (rs : list Z) :
  forall m, is_u32 m -> Forall (fun r => is_s32 r /\ 0 < r) rs ->
            is_u32 (fold_left Z.min rs m).
Proof.
  induction rs as [|r rs IH]; intros m Hm Hrs; cbn [fold_left].
  - exact Hm.
  - inversion Hrs as [|? ? [Hs Hp] Hrs']; subst. apply IH; [|exact Hrs'].
    pose proof (positive_s32_is_u32 r Hs Hp). unfold is_u32 in *. lia.
Qed.

Lemma acked_all_rtt_min (samples : list (Z * Z)) :
  forall sk, is_u32 (rtt_min (icsk_ca_priv sk)) ->
    Forall positive_sample samples ->
    rtt_min (icsk_ca_priv (acked_all samples sk))
    = fold_left Z.min (map snd samples) (rtt_min (icsk_ca_priv sk)).
Proof.
  unfold acked_all.
  induction samples as [|[cnt r] samples IH]; intros sk Hm Hs; cbn [fold_left map].
  - reflexivity.
  - inversion Hs as [|? ? [Hr Hp] Hs']; subst. cbn [fst snd] in *.
    destruct (pkts_acked_positive_sample cnt r sk Hr Hp Hm) as [_ Hmin].
    cbn zeta in Hmin. rewrite IH; [|rewrite Hmin|exact Hs'].
    + rewrite Hmin. reflexivity.
    + pose proof (positive_s32_is_u32 r Hr Hp). unfold is_u32 in *. lia.
Qed.

Lemma acked_all_snoc (samples : list (Z * Z)) (p : Z * Z) (sk : sock) :
  acked_all (samples ++ [p]) sk
  = execState (tcp_azs_pkts_acked (fst p) (snd p)) (acked_all samples sk).
Proof. unfold acked_all. rewrite fold_left_app. reflexivity. Qed.

Lemma firstn_last_sample (A : Type) (d : A) (l : list A) :
  forall i, (i < length l)%nat -> firstn (S i) l = firstn i l ++ [nth i l d].
Proof.
  induction l as [|x l IH]; intros i Hi; cbn [length] in Hi.
  - lia.
  - destruct i as [|i]; [reflexivity|].
    cbn [firstn nth app]. f_equal. apply IH. lia.
Qed.

Lemma Forall_prefix (A : Type) (P : A -> Prop) (l : list A) :
  Forall P l -> forall i, Forall P (firstn i l).
Proof.
  induction 1 as [|x l Hx Hl IH]; intros [|i]; cbn [firstn]; constructor.
  - exact Hx.
  - apply IH.
Qed.

Lemma init_rtt_min_range (sk0 : sock) :
  is_u32 (rtt_min (icsk_ca_priv (execState tcp_azs_init sk0))).
Proof.
  rewrite init_exec. cbn. unfold is_u32, TCP_AZS_INIT_RTT.
  split; [lia | reflexivity].
Qed.

(** C3: starting from the state [tcp_azs_init] produces, after the i-th of
    a sequence of [tcp_azs_pkts_acked] calls whose samples are strictly
    positive, [rtt] is the i-th sample and [rtt_min] is the minimum of
    [TCP_AZS_INIT_RTT] and the first i samples. *)
Theorem pkts_acked_latest_and_minimum
    (sk0 : sock) (samples : list (Z * Z)) (i : nat) :
  Forall positive_sample samples ->
  (1 <= i <= length samples)%nat ->
  let a := icsk_ca_priv (acked_all (firstn i samples) (execState tcp_azs_init sk0)) in
  rtt a = nth (i - 1) (map snd samples) 0 /\
  rtt_min a = fold_left Z.min (firstn i (map snd samples)) TCP_AZS_INIT_RTT.
Proof.
  intros Hs [Hi1 Hi2]. cbn zeta. split.
  - destruct i as [|i]; [lia|]. replace (S i - 1)%nat with i by lia.
    rewrite (firstn_last_sample _ (0, 0) samples i) by lia.
    rewrite acked_all_snoc.
    assert (Hin : In (nth i samples (0, 0)) samples) by (apply nth_In; lia).
    destruct (proj1 (Forall_forall _ _) Hs _ Hin) as [Hr Hp].
    rewrite (map_nth snd samples (0, 0) i : nth i (map snd samples) 0 = _).
    apply pkts_acked_positive_sample; [exact Hr | exact Hp |].
    rewrite acked_all_rtt_min.
    + apply fold_min_range; [apply init_rtt_min_range|].
      apply Forall_map. apply Forall_prefix. exact Hs.
    + apply init_rtt_min_range.
    + apply Forall_prefix. exact Hs.
  - rewrite acked_all_rtt_min.
    + rewrite firstn_map. rewrite init_exec. reflexivity.
    + apply init_rtt_min_range.
    + apply Forall_prefix. exact Hs.
Qed.

Lemma pkts_acked_latest_and_minimum_witness :
  Forall positive_sample sample_acks /\
  (1 <= 2 <= length sample_acks)%nat /\
  let a := icsk_ca_priv (acked_all (firstn 2 sample_acks)
                                   (execState tcp_azs_init sk_zeroed)) in
  rtt a = 70000 /\ rtt_min a = 50000.
Proof.
  assert (Hs : Forall positive_sample sample_acks).
  { repeat constructor; cbn; lia. }
  assert (Hi : (1 <= 2 <= length sample_acks)%nat).
  { cbn. lia. }
  split; [exact Hs|]. split; [exact Hi|].
  exact (pkts_acked_latest_and_minimum sk_zeroed sample_acks 2 Hs Hi).
Defined.

(** C4: on a connection (any socket [tcp_azs_init] has run on, followed by
    any calls), a [tcp_azs_pkts_acked] call whose sample is not positive
    leaves [rtt] and [rtt_min] as they were.  The fallback is assumed to
    leave the private record alone. *)
Theorem pkts_acked_no_sample_keeps_rtt
    (veno : Z -> Z -> hook unit) (sk0 : sock) (cs : list call) (cnt rtt_us : Z) :
  keeps_ca_priv veno ->
  rtt_us <= 0 ->
  let sk := connection veno sk0 cs in
  let sk' := execState (tcp_azs_pkts_acked cnt rtt_us) sk in
  rtt (icsk_ca_priv sk') = rtt (icsk_ca_priv sk) /\
  rtt_min (icsk_ca_priv sk') = rtt_min (icsk_ca_priv sk).
Proof.
  intros Hv Hr. cbn zeta.
  pose proof (connection_inv veno Hv sk0 cs) as Ha.
  rewrite pkts_acked_exec. cbn.
  pose proof (min_after_range rtt_us _ Ha) as Hm. rewrite (to_u32_id _ Hm).
  unfold rtt_after. destruct (Z.ltb_spec 0 rtt_us) as [Hp|_]; [lia|].
  split; [reflexivity|]. destruct Ha. lia.
Qed.

Lemma pkts_acked_no_sample_keeps_rtt_witness :
  keeps_ca_priv veno_grow /\ -1 <= 0 /\
  let sk := connection veno_grow sk_zeroed sample_calls in
  let sk' := execState (tcp_azs_pkts_acked 3 (-1)) sk in
  rtt (icsk_ca_priv sk') = rtt (icsk_ca_priv sk) /\
  rtt_min (icsk_ca_priv sk') = rtt_min (icsk_ca_priv sk).
Proof.
  assert (Hv : keeps_ca_priv veno_grow) by (intros ack acked sk; reflexivity).
  assert (Hr : -1 <= 0) by lia.
  split; [exact Hv|]. split; [exact Hr|].
  exact (pkts_acked_no_sample_keeps_rtt veno_grow sk_zeroed sample_calls 3 (-1) Hv Hr).
Defined.

(** C5: on a connection, [rtt_min <= rtt] holds, and no call of the table
    raises [rtt_min].  The fallback is assumed to leave the private record
    alone. *)
Theorem rtt_min_lower_envelope
    (veno : Z -> Z -> hook unit) (sk0 : sock) (cs : list call) :
  keeps_ca_priv veno ->
  let sk := connection veno sk0 cs in
  rtt_min (icsk_ca_priv sk) <= rtt (icsk_ca_priv sk) /\
  forall c : call,
    rtt_min (icsk_ca_priv (step veno sk c)) <= rtt_min (icsk_ca_priv sk).
Proof.
  intros Hv. cbn zeta.
  pose proof (connection_inv veno Hv sk0 cs) as Ha. split.
  - destruct Ha. assumption.
  - intros c. apply step_rtt_min_le; assumption.
Qed.

Lemma rtt_min_lower_envelope_witness :
  keeps_ca_priv veno_grow /\
  let sk := connection veno_grow sk_zeroed sample_calls in
  rtt_min (icsk_ca_priv sk) <= rtt (icsk_ca_priv sk) /\
  forall c : call,
    rtt_min (icsk_ca_priv (step veno_grow sk c)) <= rtt_min (icsk_ca_priv sk).
Proof.
  assert (Hv : keeps_ca_priv veno_grow) by (intros ack acked sk; reflexivity).
  split; [exact Hv|].
  exact (rtt_min_lower_envelope veno_grow sk_zeroed sample_calls Hv).
Defined.

Example connection_run :
  connection veno_grow sk_zeroed sample_calls
  = mk_sock 65000 (mk_azs 1 0 50000 70000 0).
Proof. reflexivity. Qed.

(** ** Initialisation and the constant answers *)

(** C6: whatever the socket held, after [tcp_azs_init] both RTT fields are
    1000000 microseconds, [azs_en] is 1 and [if_cong] is 0. *)
Theorem init_resets_state (sk : sock) :
  let a := icsk_ca_priv (execState tcp_azs_init sk) in
  rtt a = 1000000 /\ rtt_min a = 1000000 /\ rtt a = rtt_min a /\
  azs_en a = 1 /\ flag (azs_en a) = true /\
  if_cong a = 0 /\ flag (if_cong a) = false.
Proof. rewrite init_exec. cbn. repeat split. Qed.

(** C8: [tcp_azs_undo_cwnd] and [tcp_azs_ssthresh] return 65000 on every
    socket and hand the socket back as they received it. *)
Theorem undo_cwnd_ssthresh_constant (sk : sock) :
  runState tcp_azs_undo_cwnd sk = (65000, sk) /\
  runState tcp_azs_ssthresh sk = (65000, sk).
Proof. split; reflexivity. Qed.

(** ** The state-change callback and the two flags *)

(** C7, as claimed, fails: after [tcp_azs_state 4] on a freshly initialised
    socket [if_cong] is still false. *)
Lemma state_sets_if_cong_counterexample :
  flag (if_cong (icsk_ca_priv (execState (tcp_azs_state 4) sk_fresh))) = false.
Proof. reflexivity. Qed.

(** C7, amended: for every [ca_state] and every socket, [tcp_azs_state]
    leaves [if_cong] at the value it had before the call. *)
Theorem state_keeps_if_cong (ca_state : Z) (sk : sock) :
  if_cong (icsk_ca_priv (execState (tcp_azs_state ca_state) sk))
  = if_cong (icsk_ca_priv sk).
Proof. reflexivity. Qed.

(** C10: for every [ca_state] and every socket, after [tcp_azs_state] the
    field [azs_en] is 1, so the flag reads as set. *)
Theorem state_enables_override (ca_state : Z) (sk : sock) :
  let a := icsk_ca_priv (execState (tcp_azs_state ca_state) sk) in
  azs_en a = 1 /\ flag (azs_en a) = true.
Proof. split; reflexivity. Qed.

(** C9: on a connection [if_cong] is 0, and no call of the table changes
    it, [set_state] included.  The fallback is assumed to leave the
    private record alone. *)
Theorem if_cong_stays_clear
    (veno : Z -> Z -> hook unit) (sk0 : sock) (cs : list call) :
  keeps_ca_priv veno ->
  let sk := connection veno sk0 cs in
  if_cong (icsk_ca_priv sk) = 0 /\
  flag (if_cong (icsk_ca_priv sk)) = false /\
  forall c : call,
    if_cong (icsk_ca_priv (step veno sk c)) = if_cong (icsk_ca_priv sk).
Proof.
  intros Hv. cbn zeta.
  pose proof (connection_inv veno Hv sk0 cs) as Ha.
  split; [|split].
  - destruct Ha. assumption.
  - destruct Ha as [_ H _ _ _]. rewrite H. reflexivity.
  - intros c.
    pose proof (step_inv veno Hv _ c Ha) as Ha'.
    destruct Ha as [_ H _ _ _]. destruct Ha' as [_ H' _ _ _].
    rewrite H, H'. reflexivity.
Qed.

Lemma if_cong_stays_clear_witness :
  keeps_ca_priv veno_grow /\
  let sk := connection veno_grow sk_zeroed sample_calls in
  if_cong (icsk_ca_priv sk) = 0 /\
  flag (if_cong (icsk_ca_priv sk)) = false /\
  forall c : call,
    if_cong (icsk_ca_priv (step veno_grow sk c)) = if_cong (icsk_ca_priv sk).
Proof.
  assert (Hv : keeps_ca_priv veno_grow) by (intros ack acked sk; reflexivity).
  split; [exact Hv|].
  exact (if_cong_stays_clear veno_grow sk_zeroed sample_calls Hv).
Defined.

(** * Properties of whole traces *)

(** ** Calls that change nothing *)

Lemma set_azs_en_noop (a : azs) : azs_en a = 1 -> set_azs_en 1 a = a.
Proof. destruct a as [en cong m r e]. cbn. intros ->. reflexivity. Qed.

Lemma step_quiet veno (sk : sock) (c : call) :
  azs_en (icsk_ca_priv sk) = 1 -> writes_window c = false ->
  step veno sk c = sk.
Proof.
  intros Hen Hc. unfold step.
  destruct c; try discriminate Hc; cbn [tcp_azs].
  - destruct sk; reflexivity.
  - rewrite state_exec, (set_azs_en_noop _ Hen). destruct sk; reflexivity.
  - destruct sk; reflexivity.
Qed.

Section FramedFallback.

Variable veno : Z -> Z -> hook unit.
Hypothesis veno_frame : keeps_ca_priv veno.

Lemma run_drop_quiet (cs : list call) :
  forall sk, azs_inv (icsk_ca_priv sk) ->
             run veno (filter writes_window cs) sk = run veno cs sk.
Proof.
  unfold run. induction cs as [|c cs IH]; intros sk Ha; cbn [filter fold_left].
  - reflexivity.
  - destruct (writes_window c) eqn:Hc; cbn [fold_left].
    + apply IH. apply step_inv; assumption.
    + rewrite (step_quiet veno sk c (inv_azs_en _ Ha) Hc). apply IH. exact Ha.
Qed.

End FramedFallback.

(** X2: on a connection [azs_en] is 1 after every trace: [tcp_azs_init]
    and [tcp_azs_state] store 1 and nothing stores another value, so the
    flag is never found clear once [tcp_azs_init] has run. *)
Theorem azs_en_never_cleared
    (veno : Z -> Z -> hook unit) (sk0 : sock) (cs : list call) :
  keeps_ca_priv veno ->
  azs_en (icsk_ca_priv (connection veno sk0 cs)) = 1 /\
  flag (azs_en (icsk_ca_priv (connection veno sk0 cs))) = true.
Proof.
  intros Hv. pose proof (connection_inv veno Hv sk0 cs) as Ha.
  rewrite (inv_azs_en _ Ha). split; reflexivity.
Qed.

Lemma azs_en_never_cleared_witness :
  keeps_ca_priv veno_grow /\
  azs_en (icsk_ca_priv (connection veno_grow sk_zeroed mixed_calls)) = 1 /\
  flag (azs_en (icsk_ca_priv (connection veno_grow sk_zeroed mixed_calls))) = true.
Proof.
  assert (Hv : keeps_ca_priv veno_grow) by (intros ack acked sk; reflexivity).
  split; [exact Hv|].
  exact (azs_en_never_cleared veno_grow sk_zeroed mixed_calls Hv).
Defined.

(** X3: on a connection the calls [ssthresh], [set_state] and [undo_cwnd]
    leave the whole socket as it was, so dropping them from a trace gives
    the same socket. *)
Theorem quiet_calls_can_be_dropped
    (veno : Z -> Z -> hook unit) (sk0 : sock) (cs : list call) :
  keeps_ca_priv veno ->
  connection veno sk0 (filter writes_window cs) = connection veno sk0 cs /\
  forall c, writes_window c = false ->
            step veno (connection veno sk0 cs) c = connection veno sk0 cs.
Proof.
  intros Hv. split.
  - unfold connection. apply run_drop_quiet; [exact Hv | apply init_inv].
  - intros c Hc. apply step_quiet; [|exact Hc].
    apply inv_azs_en. apply connection_inv. exact Hv.
Qed.

Lemma quiet_calls_can_be_dropped_witness :
  keeps_ca_priv veno_grow /\
  connection veno_grow sk_zeroed (filter writes_window mixed_calls)
  = connection veno_grow sk_zeroed mixed_calls /\
  forall c, writes_window c = false ->
            step veno_grow (connection veno_grow sk_zeroed mixed_calls) c
            = connection veno_grow sk_zeroed mixed_calls.
Proof.
  assert (Hv : keeps_ca_priv veno_grow) by (intros ack acked sk; reflexivity).
  split; [exact Hv|].
  exact (quiet_calls_can_be_dropped veno_grow sk_zeroed mixed_calls Hv).
Defined.

(** ** RTT bookkeeping over arbitrary traces *)

Lemma last_default_irrelevant (l : list Z) :
  forall d d', l <> [] -> last l d = last l d'.
Proof.
  induction l as [|x l IH]; intros d d' Hl; [congruence|].
  destruct l as [|y l]; [reflexivity|].
  change (last (y :: l) d = last (y :: l) d'). apply IH. discriminate.
Qed.

Lemma last_cons_as_default (l : list Z) (r d : Z) : last (r :: l) d = last l r.
Proof.
  destruct l as [|y l]; [reflexivity|].
  change (last (y :: l) d = last (y :: l) r).
  apply last_default_irrelevant. discriminate.
Qed.

Lemma pkts_acked_no_sample (cnt rtt_us : Z) (sk : sock) :
  azs_inv (icsk_ca_priv sk) -> rtt_us <= 0 ->
  let a' := icsk_ca_priv (execState (tcp_azs_pkts_acked cnt rtt_us) sk) in
  rtt a' = rtt (icsk_ca_priv sk) /\ rtt_min a' = rtt_min (icsk_ca_priv sk).
Proof.
  intros Ha Hr. rewrite pkts_acked_exec. cbn.
  rewrite (to_u32_id _ (min_after_range rtt_us _ Ha)).
  unfold rtt_after. destruct (Z.ltb_spec 0 rtt_us) as [Hp|_]; [lia|].
  split; [reflexivity|]. destruct Ha. lia.
Qed.

Lemma inv_rtt_min_range (a : azs) : azs_inv a -> is_u32 (rtt_min a).
Proof. intros Ha. destruct Ha. unfold is_u32. lia. Qed.

Section TraceRtt.

Variable veno : Z -> Z -> hook unit.
Hypothesis veno_frame : keeps_ca_priv veno.

Lemma run_rtt (cs : list call) :
  forall sk, azs_inv (icsk_ca_priv sk) -> s32_samples cs ->
    rtt_min (icsk_ca_priv (run veno cs sk))
    = fold_left Z.min (stored_samples cs) (rtt_min (icsk_ca_priv sk)) /\
    rtt (icsk_ca_priv (run veno cs sk))
    = last (stored_samples cs) (rtt (icsk_ca_priv sk)).
Proof.
  unfold run.
  induction cs as [|c cs IH]; intros sk Ha Hs; cbn [fold_left].
  - split; reflexivity.
  - inversion Hs as [|? ? Hc Hs']; subst.
    destruct (IH (step veno sk c) (step_inv veno veno_frame sk c Ha) Hs')
      as [IHmin IHrtt].
    rewrite IHmin, IHrtt. clear IHmin IHrtt IH.
    destruct c; cbn [stored_samples]; unfold step; cbn [tcp_azs];
      try (split; reflexivity).
    + rewrite (cong_avoid_ca_priv veno veno_frame). split; reflexivity.
    + destruct (Z.ltb_spec 0 rtt_us) as [Hp|Hn].
      * destruct (pkts_acked_positive_sample cnt rtt_us sk Hc Hp
                    (inv_rtt_min_range _ Ha)) as [Hr Hm].
        cbn zeta in Hr, Hm. rewrite Hr, Hm. cbn [fold_left].
        rewrite last_cons_as_default. split; reflexivity.
      * destruct (pkts_acked_no_sample cnt rtt_us sk Ha Hn) as [Hr Hm].
        cbn zeta in Hr, Hm. rewrite Hr, Hm. split; reflexivity.
Qed.

Lemma run_rtt_bounds (cs : list call) :
  forall sk, azs_inv (icsk_ca_priv sk) -> s32_samples cs ->
    0 < rtt_min (icsk_ca_priv sk) -> rtt (icsk_ca_priv sk) < 2 ^ 31 ->
    0 < rtt_min (icsk_ca_priv (run veno cs sk)) /\
    rtt_min (icsk_ca_priv (run veno cs sk)) <= rtt_min (icsk_ca_priv sk) /\
    rtt (icsk_ca_priv (run veno cs sk)) < 2 ^ 31.
Proof.
  unfold run.
  induction cs as [|c cs IH]; intros sk Ha Hs Hpos Hlt; cbn [fold_left].
  - split; [exact Hpos|]. split; [apply Z.le_refl | exact Hlt].
  - inversion Hs as [|? ? Hc Hs']; subst.
    assert (Hstep : 0 < rtt_min (icsk_ca_priv (step veno sk c)) /\
                    rtt (icsk_ca_priv (step veno sk c)) < 2 ^ 31).
    { destruct c; unfold step; cbn [tcp_azs]; try (split; assumption).
      - rewrite (cong_avoid_ca_priv veno veno_frame). split; assumption.
      - destruct (Z.ltb_spec 0 rtt_us) as [Hp|Hn].
        + destruct (pkts_acked_positive_sample cnt rtt_us sk Hc Hp
                      (inv_rtt_min_range _ Ha)) as [Hr Hm].
          cbn zeta in Hr, Hm. rewrite Hr, Hm. unfold is_s32 in Hc. lia.
        + destruct (pkts_acked_no_sample cnt rtt_us sk Ha Hn) as [Hr Hm].
          cbn zeta in Hr, Hm. rewrite Hr, Hm. split; assumption. }
    destruct Hstep as [Hpos' Hlt'].
    destruct (IH (step veno sk c) (step_inv veno veno_frame sk c Ha) Hs' Hpos' Hlt')
      as [H1 [H2 H3]].
    split; [exact H1|]. split; [|exact H3].
    pose proof (step_rtt_min_le veno veno_frame sk c Ha). lia.
Qed.

End TraceRtt.

(** X4: on a connection, whatever calls are interleaved, [rtt_min] is the
    minimum of [TCP_AZS_INIT_RTT] and the samples stored so far (the
    positive [rtt_us] arguments of [pkts_acked]), and [rtt] is the last
    stored sample, or [TCP_AZS_INIT_RTT] when none was stored. *)
Theorem rtt_fields_of_a_trace
    (veno : Z -> Z -> hook unit) (sk0 : sock) (cs : list call) :
  keeps_ca_priv veno ->
  s32_samples cs ->
  let a := icsk_ca_priv (connection veno sk0 cs) in
  rtt_min a = fold_left Z.min (stored_samples cs) TCP_AZS_INIT_RTT /\
  rtt a = last (stored_samples cs) TCP_AZS_INIT_RTT.
Proof.
  intros Hv Hs. cbn zeta. unfold connection.
  destruct (run_rtt veno Hv cs _ (init_inv sk0) Hs) as [Hm Hr].
  rewrite Hm, Hr, init_exec. split; reflexivity.
Qed.

Lemma rtt_fields_of_a_trace_witness :
  keeps_ca_priv veno_grow /\ s32_samples mixed_calls /\
  let a := icsk_ca_priv (connection veno_grow sk_zeroed mixed_calls) in
  rtt_min a = 50000 /\ rtt a = 70000.
Proof.
  assert (Hv : keeps_ca_priv veno_grow) by (intros ack acked sk; reflexivity).
  assert (Hs : s32_samples mixed_calls) by (repeat constructor; unfold is_s32; cbn; lia).
  split; [exact Hv|]. split; [exact Hs|].
  exact (rtt_fields_of_a_trace veno_grow sk_zeroed mixed_calls Hv Hs).
Defined.

(** X5: on a connection fed [s32] samples both RTT fields stay strictly
    positive, [rtt_min] never exceeds [TCP_AZS_INIT_RTT] and [rtt] stays
    below 2^31, so the [u32] stores never wrap. *)
Theorem rtt_fields_positive_and_bounded
    (veno : Z -> Z -> hook unit) (sk0 : sock) (cs : list call) :
  keeps_ca_priv veno ->
  s32_samples cs ->
  let a := icsk_ca_priv (connection veno sk0 cs) in
  0 < rtt_min a /\ rtt_min a <= TCP_AZS_INIT_RTT /\
  rtt_min a <= rtt a /\ rtt a < 2 ^ 31.
Proof.
  intros Hv Hs. cbn zeta.
  pose proof (connection_inv veno Hv sk0 cs) as Ha.
  unfold connection in *.
  destruct (run_rtt_bounds veno Hv cs (execState tcp_azs_init sk0)
              (init_inv sk0) Hs) as [H1 [H2 H3]].
  - rewrite init_exec. reflexivity.
  - rewrite init_exec. reflexivity.
  - rewrite init_exec in H2 at 2. cbn in H2.
    split; [exact H1|]. split; [exact H2|]. split; [|exact H3].
    apply inv_order. exact Ha.
Qed.

Lemma rtt_fields_positive_and_bounded_witness :
  keeps_ca_priv veno_grow /\ s32_samples mixed_calls /\
  let a := icsk_ca_priv (connection veno_grow sk_zeroed mixed_calls) in
  0 < rtt_min a /\ rtt_min a <= TCP_AZS_INIT_RTT /\
  rtt_min a <= rtt a /\ rtt a < 2 ^ 31.
Proof.
  assert (Hv : keeps_ca_priv veno_grow) by (intros ack acked sk; reflexivity).
  assert (Hs : s32_samples mixed_calls) by (repeat constructor; unfold is_s32; cbn; lia).
  split; [exact Hv|]. split; [exact Hs|].
  exact (rtt_fields_positive_and_bounded veno_grow sk_zeroed mixed_calls Hv Hs).
Defined.

(** ** The window over a trace *)

Lemma run_snoc veno (cs : list call) (c : call) (sk : sock) :
  run veno (cs ++ [c]) sk = step veno (run veno cs sk) c.
Proof. unfold run. rewrite fold_left_app. reflexivity. Qed.

(** X7: whatever came before, on any socket and with any fallback, the
    window is 65000 right after a [pkts_acked] or a [cwnd_event] call;
    neither callback looks at [azs_en] or [ezs_en]. *)
Theorem window_after_ack_or_event
    (veno : Z -> Z -> hook unit) (sk : sock) (cs : list call) :
  (forall cnt rtt_us,
      snd_cwnd (run veno (cs ++ [pkts_acked cnt rtt_us]) sk) = 65000) /\
  (forall event,
      snd_cwnd (run veno (cs ++ [cwnd_event event]) sk) = 65000).
Proof.
  split; intros; rewrite run_snoc; unfold step; cbn [tcp_azs].
  - apply pkts_acked_forces_window.
  - reflexivity.
Qed.

(** ** Repeated and reordered acknowledgements *)

Lemma pkts_acked_twice (cnt1 cnt2 rtt_us : Z) (sk : sock) :
  azs_inv (icsk_ca_priv sk) ->
  execState (tcp_azs_pkts_acked cnt2 rtt_us)
            (execState (tcp_azs_pkts_acked cnt1 rtt_us) sk)
  = execState (tcp_azs_pkts_acked cnt1 rtt_us) sk.
Proof.
  intros Ha. rewrite !pkts_acked_exec. cbn.
  pose proof (rtt_after_range rtt_us _ Ha) as Hr.
  pose proof (min_after_range rtt_us _ Ha) as Hm.
  rewrite (to_u32_id _ Hm).
  set (a := icsk_ca_priv sk) in *.
  assert (E : rtt_after rtt_us
                (mk_azs (azs_en a) (if_cong a)
                        (Z.min (rtt_min a) (rtt_after rtt_us a))
                        (rtt_after rtt_us a) (ezs_en a))
              = rtt_after rtt_us a).
  { unfold rtt_after. cbn. destruct (0 <? rtt_us); reflexivity. }
  rewrite E.
  replace (Z.min (Z.min (rtt_min a) (rtt_after rtt_us a)) (rtt_after rtt_us a))
    with (Z.min (rtt_min a) (rtt_after rtt_us a)) by lia.
  rewrite (to_u32_id _ Hm). reflexivity.
Qed.

(** X8: on a connection a [pkts_acked] call repeated with the same
    [rtt_us] changes nothing more: the socket after the second call is
    the socket after the first, whatever the two [cnt] arguments. *)
Theorem pkts_acked_repeat_is_noop
    (veno : Z -> Z -> hook unit) (sk0 : sock) (cs : list call)
    (cnt1 cnt2 rtt_us : Z) :
  keeps_ca_priv veno ->
  let sk := connection veno sk0 cs in
  execState (tcp_azs_pkts_acked cnt2 rtt_us)
            (execState (tcp_azs_pkts_acked cnt1 rtt_us) sk)
  = execState (tcp_azs_pkts_acked cnt1 rtt_us) sk.
Proof.
  intros Hv. cbn zeta. apply pkts_acked_twice. apply connection_inv. exact Hv.
Qed.

Lemma pkts_acked_repeat_is_noop_witness :
  keeps_ca_priv veno_grow /\
  let sk := connection veno_grow sk_zeroed mixed_calls in
  execState (tcp_azs_pkts_acked 9 20000)
            (execState (tcp_azs_pkts_acked 4 20000) sk)
  = execState (tcp_azs_pkts_acked 4 20000) sk.
Proof.
  assert (Hv : keeps_ca_priv veno_grow) by (intros ack acked sk; reflexivity).
  split; [exact Hv|].
  exact (pkts_acked_repeat_is_noop veno_grow sk_zeroed mixed_calls 4 9 20000 Hv).
Defined.

Lemma fold_min_permutation (l1 l2 : list Z) :
  Permutation l1 l2 -> forall m, fold_left Z.min l1 m = fold_left Z.min l2 m.
Proof.
  induction 1 as [|x l1 l2 _ IH|x y l|l1 l2 l3 _ IH1 _ IH2]; intros m;
    cbn [fold_left].
  - reflexivity.
  - apply IH.
  - f_equal. lia.
  - rewrite IH1. apply IH2.
Qed.

(** X9: on two connections whose traces store the same samples in any
    order, interleaved with any other calls, [rtt_min] ends up the same. *)
Theorem rtt_min_ignores_sample_order
    (veno : Z -> Z -> hook unit) (sk1 sk2 : sock) (cs1 cs2 : list call) :
  keeps_ca_priv veno ->
  s32_samples cs1 -> s32_samples cs2 ->
  Permutation (stored_samples cs1) (stored_samples cs2) ->
  rtt_min (icsk_ca_priv (connection veno sk1 cs1))
  = rtt_min (icsk_ca_priv (connection veno sk2 cs2)).
Proof.
  intros Hv Hs1 Hs2 Hp. unfold connection.
  destruct (run_rtt veno Hv cs1 _ (init_inv sk1) Hs1) as [H1 _].
  destruct (run_rtt veno Hv cs2 _ (init_inv sk2) Hs2) as [H2 _].
  rewrite H1, H2, !init_exec. cbn. apply fold_min_permutation. exact Hp.
Qed.

Lemma rtt_min_ignores_sample_order_witness :
  keeps_ca_priv veno_grow /\
  s32_samples mixed_calls /\ s32_samples swapped_calls /\
  Permutation (stored_samples mixed_calls) (stored_samples swapped_calls) /\
  rtt_min (icsk_ca_priv (connection veno_grow sk_zeroed mixed_calls))
  = rtt_min (icsk_ca_priv (connection veno_grow sk_ezs_set swapped_calls)).
Proof.
  assert (Hv : keeps_ca_priv veno_grow) by (intros ack acked sk; reflexivity).
  assert (Hs1 : s32_samples mixed_calls)
    by (repeat constructor; unfold is_s32; cbn; lia).
  assert (Hs2 : s32_samples swapped_calls)
    by (repeat constructor; unfold is_s32; cbn; lia).
  assert (Hp : Permutation (stored_samples mixed_calls) (stored_samples swapped_calls))
    by (cbn; apply perm_swap).
  split; [exact Hv|]. split; [exact Hs1|]. split; [exact Hs2|]. split; [exact Hp|].
  exact (rtt_min_ignores_sample_order veno_grow sk_zeroed sk_ezs_set
           mixed_calls swapped_calls Hv Hs1 Hs2 Hp).
Defined.

(** ** Sockets that were not initialised *)

(** X12: [tcp_azs_pkts_acked] restores the order of the two RTT fields by
    itself: on any socket whose RTT fields hold [u32] values, initialised
    or not, one call leaves [rtt_min <= rtt], with [rtt_min] no larger
    than before. *)
Theorem pkts_acked_restores_order (cnt rtt_us : Z) (sk : sock) :
  is_u32 (rtt_min (icsk_ca_priv sk)) ->
  is_u32 (rtt (icsk_ca_priv sk)) ->
  let a' := icsk_ca_priv (execState (tcp_azs_pkts_acked cnt rtt_us) sk) in
  rtt_min a' <= rtt a' /\ rtt_min a' <= rtt_min (icsk_ca_priv sk).
Proof.
  intros Hm Hr. rewrite pkts_acked_exec. cbn.
  assert (Hra : is_u32 (rtt_after rtt_us (icsk_ca_priv sk))).
  { unfold rtt_after. destruct (0 <? rtt_us); [apply to_u32_range | exact Hr]. }
  rewrite to_u32_id by (unfold is_u32 in *; lia).
  split; [apply Z.le_min_r | apply Z.le_min_l].
Qed.

Lemma pkts_acked_restores_order_witness :
  is_u32 (rtt_min (icsk_ca_priv (mk_sock 10 (mk_azs 0 0 900 300 0)))) /\
  is_u32 (rtt (icsk_ca_priv (mk_sock 10 (mk_azs 0 0 900 300 0)))) /\
  let a' := icsk_ca_priv (execState (tcp_azs_pkts_acked 2 (-1))
                                    (mk_sock 10 (mk_azs 0 0 900 300 0))) in
  rtt_min a' <= rtt a' /\ rtt_min a' <= 900.
Proof.
  assert (Hm : is_u32 (rtt_min (icsk_ca_priv (mk_sock 10 (mk_azs 0 0 900 300 0)))))
    by (unfold is_u32; cbn; lia).
  assert (Hr : is_u32 (rtt (icsk_ca_priv (mk_sock 10 (mk_azs 0 0 900 300 0)))))
    by (unfold is_u32; cbn; lia).
  split; [exact Hm|]. split; [exact Hr|].
  exact (pkts_acked_restores_order 2 (-1) (mk_sock 10 (mk_azs 0 0 900 300 0)) Hm Hr).
Defined.
